(** * prefect_kubernetes.credentials: credential resolution and scoped clients

    A shallow embedding of [src/prefect_kubernetes/credentials.py]:
    the module-level table [K8S_CLIENT_TYPES] and the two methods of
    [KubernetesCredentials], [get_client] and
    [get_resource_specific_client].

    The Python code is effectful: it calls into the kubernetes client
    library (which keeps a process-wide default [Configuration]), raises
    and catches exceptions, and [get_client] is a generator wrapped by
    [contextlib.contextmanager].  The embedding uses a small monad that
    threads a store, accumulates the trace of library calls, and carries
    either a value or a raised exception. *)

From Stdlib Require Import String Ascii List Bool Arith Lia.
Import ListNotations.
Local Open Scope string_scope.
Local Open Scope list_scope.

(** ** Data model *)

(** [prefect.blocks.kubernetes.KubernetesClusterConfig]: an opaque block
    holding a kube config document and the name of a context in it. *)
Record KubernetesClusterConfig : Type := mkClusterConfig {
  config : string;
  context_name : string
}.

(** [kubernetes.client.Configuration], by the way its content was
    obtained.  The library keeps one process-wide default, replaced by
    each of the three loading mechanisms. *)
Inductive Configuration : Type :=
| LibraryDefaults                                   (* Configuration() *)
| LoadedFromClusterConfig (c : KubernetesClusterConfig)
| LoadedInCluster
| LoadedKubeConfig
| CallerBuilt (tag : string).                       (* built by the caller *)

(** The three classes stored in [K8S_CLIENT_TYPES]. *)
Inductive ClientClass : Type := AppsV1Api | BatchV1Api | CoreV1Api.

(** An instance of one of the three classes.  A resource client built
    with no argument creates its own [ApiClient()], which copies the
    process-wide default configuration of that moment. *)
Record KubernetesClient : Type := mkClient {
  client_class : ClientClass;
  client_configuration : Configuration
}.

(** [ApiClient]: the generic transport, bound to a configuration. *)
Record ApiClient : Type := mkApiClient {
  api_configuration : Configuration
}.

(** Python exceptions that occur in the module. *)
Inductive PyExn : Type :=
| ConfigException (msg : string)
| KeyError (key : string)
| ValueError (msg : string)
| OtherException (cls msg : string).

Definition is_ConfigException (e : PyExn) : bool :=
  match e with ConfigException _ => true | _ => false end.

Definition is_KeyError (e : PyExn) : bool :=
  match e with KeyError _ => true | _ => false end.

(** A Python dict with string keys, in insertion order. *)
Definition PyDict (V : Type) : Type := list (string * V).

Fixpoint dict_get {V : Type} (d : PyDict V) (k : string) : option V :=
  match d with
  | [] => None
  | (k', v) :: d' => if String.eqb k' k then Some v else dict_get d' k
  end.

Definition dict_keys {V : Type} (d : PyDict V) : list string := map fst d.

(** Lines 15-19. *)
Definition K8S_CLIENT_TYPES : PyDict ClientClass :=
  [ ("apps", AppsV1Api); ("batch", BatchV1Api); ("core", CoreV1Api) ].

(** ** Store, trace and results *)

(** What the code can read or write: the block's own field, the module
    global, and the library's process-wide default configuration. *)
Record Store : Type := mkStore {
  self_cluster_config : option KubernetesClusterConfig;
  module_K8S_CLIENT_TYPES : PyDict ClientClass;
  default_configuration : Configuration
}.

(** Calls that leave the module, in the order they are made. *)
Inductive Event : Type :=
| EvConfigurationInit                           (* Configuration() *)
| EvApiClientInit (cfg : Configuration)         (* ApiClient(configuration=cfg) *)
| EvConfigureClient (c : KubernetesClusterConfig)
| EvLoadInclusterConfig
| EvLoadKubeConfig
| EvResourceClientInit (k : ClientClass)        (* AppsV1Api() and the like *)
| EvBlock (c : KubernetesClient)                (* the caller's with-block runs *)
| EvPoolManagerClear (t : ApiClient)            (* rest_client.pool_manager.clear() *)
| EvApiClientClose (t : ApiClient).             (* ApiClient.__exit__ *)

Inductive Result (A : Type) : Type :=
| Ok (a : A)
| Raise (e : PyExn).
Arguments Ok {A} a.
Arguments Raise {A} e.

Record Run (A : Type) : Type := mkRun {
  trace : list Event;
  store : Store;
  result : Result A
}.
Arguments mkRun {A} trace store result.
Arguments trace {A} r.
Arguments store {A} r.
Arguments result {A} r.

Definition M (A : Type) : Type := Store -> Run A.

Module Py.

Definition ret {A} (a : A) : M A := fun s => mkRun [] s (Ok a).

Definition raise {A} (e : PyExn) : M A := fun s => mkRun [] s (Raise e).

Definition bind {A B} (m : M A) (f : A -> M B) : M B := fun s =>
  let r := m s in
  match result r with
  | Ok a => let r' := f a (store r) in
            mkRun (trace r ++ trace r') (store r') (result r')
  | Raise e => mkRun (trace r) (store r) (Raise e)
  end.

Definition emit (ev : Event) : M unit := fun s => mkRun [ev] s (Ok tt).

Definition get : M Store := fun s => mkRun [] s (Ok s).

Definition put (s' : Store) : M unit := fun _ => mkRun [] s' (Ok tt).

(** [try: body / except E: handler], where [catches] decides
    [isinstance(e, E)]. *)
Definition try_except {A} (body : M A) (catches : PyExn -> bool)
    (handler : PyExn -> M A) : M A := fun s =>
  let r := body s in
  match result r with
  | Ok a => r
  | Raise e =>
      if catches e then
        let r' := handler e (store r) in
        mkRun (trace r ++ trace r') (store r') (result r')
      else r
  end.

(** [try: body / finally: fin].  The final clause runs on every exit
    of the body; an exception of its own would replace the body's. *)
Definition try_finally {A} (body : M A) (fin : M unit) : M A := fun s =>
  let r := body s in
  let f := fin (store r) in
  mkRun (trace r ++ trace f) (store f)
        (match result f with
         | Ok _ => result r
         | Raise e => Raise e
         end).

(** [with mk as h: body], for a context manager whose [__enter__]
    returns the object itself and whose [__exit__] returns [None], so
    that an exception of the body is not suppressed. *)
Definition with_ {H A} (mk : M H) (exit_ : H -> M unit) (body : H -> M A)
    : M A :=
  bind mk (fun h => try_finally (body h) (exit_ h)).

End Py.

Declare Scope py_scope.
Delimit Scope py_scope with py.
Notation "x <- m ;; k" := (Py.bind m (fun x => k))
  (at level 100, m at next level, right associativity) : py_scope.
Notation "m ;;; k" := (Py.bind m (fun _ => k))
  (at level 100, right associativity) : py_scope.
Local Open Scope py_scope.

(** ** The collaborators outside the module *)

(** How the three loading mechanisms end for one call: [None] when the
    call returns, [Some e] when it raises [e]. *)
Record Environment : Type := mkEnv {
  configure_client_raises : KubernetesClusterConfig -> option PyExn;
  load_incluster_config_raises : option PyExn;
  load_kube_config_raises : option PyExn
}.

(** How the caller's with-block ends. *)
Inductive BlockExit : Type :=
| Completes                 (* control falls off the end of the block *)
| Returns (v : nat)         (* a [return v] inside the block *)
| Raises (e : PyExn).

(** What the with-statement hands back to the enclosing code. *)
Inductive Control : Type :=
| FallThrough
| Return (v : nat).

Module Kube.

Definition set_default (c : Configuration) : M unit :=
  s <- Py.get ;;
  Py.put (mkStore (self_cluster_config s) (module_K8S_CLIENT_TYPES s) c).

(** A library call that either raises or installs a new default. *)
Definition loader (ev : Event) (outcome : option PyExn)
    (c : Configuration) : M unit :=
  Py.emit ev ;;;
  match outcome with
  | Some e => Py.raise e
  | None => set_default c
  end.

(** [KubernetesClusterConfig.configure_client()]. *)
Definition configure_client (env : Environment)
    (c : KubernetesClusterConfig) : M unit :=
  loader (EvConfigureClient c) (configure_client_raises env c)
         (LoadedFromClusterConfig c).

(** [kube_config.load_incluster_config()]. *)
Definition load_incluster_config (env : Environment) : M unit :=
  loader EvLoadInclusterConfig (load_incluster_config_raises env)
         LoadedInCluster.

(** [kube_config.load_kube_config()]. *)
Definition load_kube_config (env : Environment) : M unit :=
  loader EvLoadKubeConfig (load_kube_config_raises env) LoadedKubeConfig.

(** [Configuration()]. *)
Definition Configuration_init : M Configuration :=
  Py.emit EvConfigurationInit ;;; Py.ret LibraryDefaults.

(** [ApiClient(configuration=cfg)]. *)
Definition ApiClient_init (cfg : Configuration) : M ApiClient :=
  Py.emit (EvApiClientInit cfg) ;;; Py.ret (mkApiClient cfg).

(** [ApiClient.__exit__], which closes the client.  Like the clearing
    of the pool below, it only lets resources go and returns. *)
Definition ApiClient_exit (t : ApiClient) : M unit :=
  Py.emit (EvApiClientClose t).

(** [t.rest_client.pool_manager.clear()]. *)
Definition pool_manager_clear (t : ApiClient) : M unit :=
  Py.emit (EvPoolManagerClear t).

(** Calling one of the three classes with no argument. *)
Definition construct (k : ClientClass) : M KubernetesClient :=
  Py.emit (EvResourceClientInit k) ;;;
  s <- Py.get ;;
  Py.ret (mkClient k (default_configuration s)).

End Kube.

(** ** Strings of the error message *)

(** [repr] of a [str] that has no quote, backslash or unprintable
    character, which is the case of the keys of [K8S_CLIENT_TYPES]. *)
Definition repr (s : string) : string := "'" ++ s ++ "'".

(** [str.join]. *)
Fixpoint join (sep : string) (l : list string) : string :=
  match l with
  | [] => ""
  | [x] => x
  | x :: l' => x ++ sep ++ join sep l'
  end.

(** [prefect.utilities.collections.listrepr], with its default separator. *)
Definition listrepr (objs : list string) : string := join " " (map repr objs).

(** The f-string of lines 151-152. *)
Definition invalid_client_type_message (client_type : string)
    (keys : list string) : string :=
  "Invalid client type provided '" ++ client_type ++ "'."
  ++ " Must be one of " ++ listrepr keys ++ ".".

Arguments invalid_client_type_message : simpl never.

(** [sub in s] on strings. *)
Fixpoint str_contains (s sub : string) : bool :=
  String.prefix sub s ||
  match s with
  | EmptyString => false
  | String _ s' => str_contains s' sub
  end.

(** ** The methods of [KubernetesCredentials] *)

Section Methods.

Variable env : Environment.

(** Lines 139-145: the resolution chain.  A cluster configuration
    block is a truthy object, so [if self.cluster_config] asks whether
    the field is set. *)
Definition resolve_configuration : M unit :=
  s <- Py.get ;;
  match self_cluster_config s with
  | Some c => Kube.configure_client env c
  | None =>
      Py.try_except (Kube.load_incluster_config env)
                    is_ConfigException
                    (fun _ => Kube.load_kube_config env)
  end.

(** [K8S_CLIENT_TYPES[client_type]]. *)
Definition lookup_client_class (client_type : string) : M ClientClass :=
  s <- Py.get ;;
  match dict_get (module_K8S_CLIENT_TYPES s) client_type with
  | Some k => Py.ret k
  | None => Py.raise (KeyError client_type)
  end.

(** Lines 109-153. *)
Definition get_resource_specific_client (client_type : string)
    : M KubernetesClient :=
  resolve_configuration ;;;
  Py.try_except
    (k <- lookup_client_class client_type ;; Kube.construct k)
    is_KeyError
    (fun _ =>
       s <- Py.get ;;
       Py.raise (ValueError
         (invalid_client_type_message client_type
            (dict_keys (module_K8S_CLIENT_TYPES s))))).

(** Lines 78-107.  [get_client] is a generator function under
    [@contextmanager]: the code up to the [yield] runs when the
    with-statement is entered, the with-block runs at the [yield], an
    exception of the block is thrown back in at the [yield], and the
    rest runs when the block is left.  The continuation [at_yield]
    stands for what happens at the [yield].  In line 101 a
    [Configuration] object is truthy, so [Configuration()] is called
    exactly when the argument is [None]. *)
Definition get_client {A} (client_type : string)
    (configuration : option Configuration)
    (at_yield : KubernetesClient -> M A) : M A :=
  client_config <-
    match configuration with
    | Some c => Py.ret c
    | None => Kube.Configuration_init
    end ;;
  Py.with_ (Kube.ApiClient_init client_config) Kube.ApiClient_exit
    (fun generic_client =>
       Py.try_finally
         (c <- get_resource_specific_client client_type ;; at_yield c)
         (Kube.pool_manager_clear generic_client)).

(** The caller's with-block, run at the [yield]. *)
Definition run_block (block : KubernetesClient -> BlockExit)
    (c : KubernetesClient) : M Control :=
  Py.emit (EvBlock c) ;;;
  match block c with
  | Completes => Py.ret FallThrough
  | Returns v => Py.ret (Return v)
  | Raises e => Py.raise e
  end.

(** [with self.get_client(client_type, configuration) as c: block]. *)
Definition with_get_client (client_type : string)
    (configuration : option Configuration)
    (block : KubernetesClient -> BlockExit) : M Control :=
  get_client client_type configuration (run_block block).

End Methods.

(** The store right after the module is imported and a block loaded. *)
Definition initial_store (cluster_config : option KubernetesClusterConfig)
    (ambient : Configuration) : Store :=
  mkStore cluster_config K8S_CLIENT_TYPES ambient.

(** ** Observations on a run *)

Definition is_ApiClientInit (ev : Event) : bool :=
  match ev with EvApiClientInit _ => true | _ => false end.

Definition is_PoolManagerClear (ev : Event) : bool :=
  match ev with EvPoolManagerClear _ => true | _ => false end.

Definition is_LoadInclusterConfig (ev : Event) : bool :=
  match ev with EvLoadInclusterConfig => true | _ => false end.

Definition is_LoadKubeConfig (ev : Event) : bool :=
  match ev with EvLoadKubeConfig => true | _ => false end.

Definition is_Block (ev : Event) : bool :=
  match ev with EvBlock _ => true | _ => false end.

(** The events of the generic transport's life and of the
    configuration handed to it. *)
Definition is_transport_event (ev : Event) : bool :=
  match ev with
  | EvConfigurationInit | EvApiClientInit _
  | EvPoolManagerClear _ | EvApiClientClose _ => true
  | _ => false
  end.

Definition count_events (p : Event -> bool) (tr : list Event) : nat :=
  List.length (filter p tr).

(** The clients handed to the with-block. *)
Fixpoint yielded (tr : list Event) : list KubernetesClient :=
  match tr with
  | [] => []
  | EvBlock c :: tr' => c :: yielded tr'
  | _ :: tr' => yielded tr'
  end.

(** The configurations generic transports were opened with. *)
Fixpoint transport_configurations (tr : list Event) : list Configuration :=
  match tr with
  | [] => []
  | EvApiClientInit cfg :: tr' => cfg :: transport_configurations tr'
  | _ :: tr' => transport_configurations tr'
  end.

(** The trace without the transport's own events. *)
Definition without_transport (tr : list Event) : list Event :=
  filter (fun ev => negb (is_transport_event ev)) tr.

(** Line 101, as a value and as calls. *)
Definition effective_configuration (configuration : option Configuration)
    : Configuration :=
  match configuration with Some c => c | None => LibraryDefaults end.

Definition configuration_events (configuration : option Configuration)
    : list Event :=
  match configuration with Some _ => [] | None => [EvConfigurationInit] end.

(** How the with-block's exit shows in the with-statement. *)
Definition block_result (b : BlockExit) : Result Control :=
  match b with
  | Completes => Ok FallThrough
  | Returns v => Ok (Return v)
  | Raises e => Raise e
  end.

(** ** Concrete situations *)

(** Inside a pod: the service-account files are there. *)
Definition env_incluster : Environment := mkEnv (fun _ => None) None None.

(** On a workstation with a kube config file. *)
Definition env_workstation : Environment :=
  mkEnv (fun _ => None)
        (Some (ConfigException "Service host/port is not set."))
        None.

(** Neither in a cluster nor a kube config file. *)
Definition env_bare : Environment :=
  mkEnv (fun _ => Some (ConfigException "Invalid kube-config dict."))
        (Some (ConfigException "Service host/port is not set."))
        (Some (ConfigException "Invalid kube-config file.")).

(** In a pod whose token file cannot be read. *)
Definition env_broken_pod : Environment :=
  mkEnv (fun _ => None)
        (Some (OtherException "PermissionError" "token"))
        None.

Definition cluster_dev : KubernetesClusterConfig :=
  mkClusterConfig "{clusters: [dev]}" "dev".

Definition api_failure : PyExn := OtherException "ApiException" "(403) Forbidden".

(** ** The context-manager protocol *)

(** [contextlib.contextmanager] turns the generator function of lines
    78-107 into an object with [__enter__] and [__exit__].  A
    with-statement calls the first, runs its block, and calls the
    second; code may also call the two by hand.  What follows spells
    the protocol out on the generator's frame, which at the [yield]
    holds [generic_client]. *)

Definition PyExn_eqb (a b : PyExn) : bool :=
  match a, b with
  | ConfigException m, ConfigException m' => String.eqb m m'
  | KeyError k, KeyError k' => String.eqb k k'
  | ValueError m, ValueError m' => String.eqb m m'
  | OtherException c m, OtherException c' m' =>
      String.eqb c c' && String.eqb m m'
  | _, _ => false
  end.

(** The value or exception of a computation, as a value. *)
Definition attempt {A} (m : M A) : M (Result A) := fun s =>
  let r := m s in mkRun (trace r) (store r) (Ok (result r)).

(** A [finally] clause (or an [__exit__]) around code that stops at a
    [yield]: it runs now only if the code raises before the [yield]. *)
Definition unwinding {A} (body : M A) (fin : M unit) : M A := fun s =>
  let r := body s in
  match result r with
  | Ok _ => r
  | Raise e =>
      let f := fin (store r) in
      mkRun (trace r ++ trace f) (store f)
            (match result f with
             | Ok _ => Raise e
             | Raise e' => Raise e'
             end)
  end.

Section Protocol.

Variable env : Environment.

(** [__enter__]: the generator runs up to the [yield] of line 105 and
    hands over the client; its frame stays suspended inside the [try]
    and the [with] of lines 103-104. *)
Definition get_client_enter (client_type : string)
    (configuration : option Configuration)
    : M (ApiClient * KubernetesClient) :=
  client_config <-
    match configuration with
    | Some c => Py.ret c
    | None => Kube.Configuration_init
    end ;;
  generic_client <- Kube.ApiClient_init client_config ;;
  unwinding
    (unwinding
       (c <- get_resource_specific_client env client_type ;;
        Py.ret (generic_client, c))
       (Kube.pool_manager_clear generic_client))
    (Kube.ApiClient_exit generic_client).

(** The suspended frame resumed at the [yield], normally or by
    [gen.throw(e)]: lines 106-107, then the end of the [with] of line
    103. *)
Definition resume_generator (generic_client : ApiClient)
    (thrown : option PyExn) : M unit :=
  Py.try_finally
    (Py.try_finally
       (match thrown with
        | Some e => Py.raise e
        | None => Py.ret tt
        end)
       (Kube.pool_manager_clear generic_client))
    (Kube.ApiClient_exit generic_client).

(** [__exit__]: resumes the generator; returns whether the exception
    of the block is suppressed.  An exception other than the one
    thrown in leaves [__exit__] itself. *)
Definition get_client_exit (generic_client : ApiClient)
    (thrown : option PyExn) : M bool :=
  Py.try_except
    (resume_generator generic_client thrown ;;;
     Py.ret (match thrown with Some _ => true | None => false end))
    (fun _ => true)
    (fun e' =>
       match thrown with
       | Some e => if PyExn_eqb e' e then Py.ret false else Py.raise e'
       | None => Py.raise e'
       end).

(** The with-statement, by the protocol. *)
Definition with_protocol (client_type : string)
    (configuration : option Configuration)
    (block : KubernetesClient -> BlockExit) : M Control :=
  entered <- get_client_enter client_type configuration ;;
  b <- attempt (run_block block (snd entered)) ;;
  match b with
  | Ok v => get_client_exit (fst entered) None ;;; Py.ret v
  | Raise e =>
      suppressed <- get_client_exit (fst entered) (Some e) ;;
      if suppressed then Py.ret FallThrough else Py.raise e
  end.

End Protocol.

(** ** Keys that [repr] only quotes *)

(** A printable ASCII character other than the quote and the backslash. *)
Definition plain_char (c : ascii) : bool :=
  let n := nat_of_ascii c in
  Nat.leb 32 n && Nat.leb n 126 && negb (Nat.eqb n 39) && negb (Nat.eqb n 92).

Fixpoint plain_key (s : string) : bool :=
  match s with
  | EmptyString => true
  | String c s' => plain_char c && plain_key s'
  end.

(** ** Telling transports apart *)





(** ** Basic facts *)

Lemma eqb_neq_false (a b : string) : a <> b -> String.eqb a b = false.
Proof. intros H. apply String.eqb_neq. exact H. Qed.

Lemma dict_get_K8S_CLIENT_TYPES_None (client_type : string) :
  dict_get K8S_CLIENT_TYPES client_type = None <->
  client_type <> "apps" /\ client_type <> "batch" /\ client_type <> "core".
Proof.
  unfold K8S_CLIENT_TYPES. cbn [dict_get].
  destruct (String.eqb_spec "apps" client_type) as [E1 | N1].
  - split; [discriminate | intros (H & _ & _); congruence].
  - destruct (String.eqb_spec "batch" client_type) as [E2 | N2].
    + split; [discriminate | intros (_ & H & _); congruence].
    + destruct (String.eqb_spec "core" client_type) as [E3 | N3].
      * split; [discriminate | intros (_ & _ & H); congruence].
      * split; [intros _; repeat split; congruence | reflexivity].
Qed.

Lemma count_events_app (p : Event -> bool) (a b : list Event) :
  count_events p (a ++ b) = count_events p a + count_events p b.
Proof. unfold count_events. rewrite filter_app, length_app. reflexivity. Qed.

Lemma yielded_app (a b : list Event) : yielded (a ++ b) = yielded a ++ yielded b.
Proof.
  induction a as [| ev a IH]; simpl; [reflexivity |].
  destruct ev; simpl; rewrite IH; reflexivity.
Qed.

Lemma append_assoc' (a b c : string) :
  ((a ++ b) ++ c = a ++ b ++ c)%string.
Proof. induction a as [| ch a IH]; simpl; [reflexivity | rewrite IH; reflexivity]. Qed.

Lemma prefix_append (sub suf : string) :
  String.prefix sub (sub ++ suf)%string = true.
Proof.
  induction sub as [| ch sub IH]; simpl.
  - destruct suf; reflexivity.
  - destruct (ascii_dec ch ch) as [_ | N]; [exact IH | contradiction].
Qed.

Lemma str_contains_here (sub suf : string) :
  str_contains (sub ++ suf)%string sub = true.
Proof.
  assert (U : forall s, String.prefix sub s = true ->
              str_contains s sub = true).
  { intros s H. destruct s; simpl; simpl in H; rewrite H; reflexivity. }
  apply U, prefix_append.
Qed.

Lemma str_contains_later (pre s sub : string) :
  str_contains s sub = true -> str_contains (pre ++ s)%string sub = true.
Proof.
  intros H. induction pre as [| ch pre IH]; simpl; [exact H |].
  rewrite IH. apply orb_true_r.
Qed.

Lemma str_contains_middle (pre sub suf : string) :
  str_contains (pre ++ sub ++ suf)%string sub = true.
Proof. apply str_contains_later, str_contains_here. Qed.

(** ** The runs of the methods, step by step *)

Section Runs.

Variable env : Environment.

(** The chain only ever replaces the default configuration. *)
Lemma resolve_configuration_store (s : Store) :
  store (resolve_configuration env s) =
  mkStore (self_cluster_config s) (module_K8S_CLIENT_TYPES s)
          (default_configuration (store (resolve_configuration env s))).
Proof.
  destruct s as [cc tbl amb].
  unfold resolve_configuration, Kube.configure_client,
    Kube.load_incluster_config, Kube.load_kube_config, Kube.loader.
  destruct cc as [c |]; cbn.
  - destruct (configure_client_raises env c); reflexivity.
  - destruct (load_incluster_config_raises env) as [e |]; cbn;
      [| reflexivity].
    destruct (is_ConfigException e); cbn; [| reflexivity].
    destruct (load_kube_config_raises env); reflexivity.
Qed.

Lemma resolve_configuration_table (s : Store) :
  module_K8S_CLIENT_TYPES (store (resolve_configuration env s)) =
  module_K8S_CLIENT_TYPES s.
Proof. rewrite resolve_configuration_store. reflexivity. Qed.

Lemma resolve_configuration_cluster_config (s : Store) :
  self_cluster_config (store (resolve_configuration env s)) =
  self_cluster_config s.
Proof. rewrite resolve_configuration_store. reflexivity. Qed.

(** With a stored cluster configuration (lines 139-140). *)
Lemma resolve_configuration_explicit (s : Store)
    (c : KubernetesClusterConfig) :
  self_cluster_config s = Some c ->
  resolve_configuration env s =
  match configure_client_raises env c with
  | Some e => mkRun [EvConfigureClient c] s (Raise e)
  | None =>
      mkRun [EvConfigureClient c]
            (mkStore (self_cluster_config s) (module_K8S_CLIENT_TYPES s)
                     (LoadedFromClusterConfig c))
            (Ok tt)
  end.
Proof.
  destruct s as [cc tbl amb]. cbn [self_cluster_config]. intros ->.
  unfold resolve_configuration, Kube.configure_client, Kube.loader. cbn.
  destruct (configure_client_raises env c); reflexivity.
Qed.

(** Without one (lines 141-145). *)
Lemma resolve_configuration_fallback (s : Store) :
  self_cluster_config s = None ->
  resolve_configuration env s =
  match load_incluster_config_raises env with
  | None =>
      mkRun [EvLoadInclusterConfig]
            (mkStore (self_cluster_config s) (module_K8S_CLIENT_TYPES s)
                     LoadedInCluster)
            (Ok tt)
  | Some e =>
      if is_ConfigException e then
        match load_kube_config_raises env with
        | None =>
            mkRun [EvLoadInclusterConfig; EvLoadKubeConfig]
                  (mkStore (self_cluster_config s)
                           (module_K8S_CLIENT_TYPES s) LoadedKubeConfig)
                  (Ok tt)
        | Some e' =>
            mkRun [EvLoadInclusterConfig; EvLoadKubeConfig] s (Raise e')
        end
      else mkRun [EvLoadInclusterConfig] s (Raise e)
  end.
Proof.
  destruct s as [cc tbl amb]. cbn [self_cluster_config]. intros ->.
  unfold resolve_configuration, Kube.load_incluster_config,
    Kube.load_kube_config, Kube.loader. cbn.
  destruct (load_incluster_config_raises env) as [e |]; cbn;
    [| reflexivity].
  destruct (is_ConfigException e); cbn; [| reflexivity].
  destruct (load_kube_config_raises env); reflexivity.
Qed.

(** The chain calls nothing but the three loading mechanisms. *)
Lemma resolve_configuration_trace (s : Store) :
  (exists c, trace (resolve_configuration env s) = [EvConfigureClient c])
  \/ trace (resolve_configuration env s) = [EvLoadInclusterConfig]
  \/ trace (resolve_configuration env s)
     = [EvLoadInclusterConfig; EvLoadKubeConfig].
Proof.
  destruct (self_cluster_config s) as [c |] eqn:H.
  - left. exists c. rewrite (resolve_configuration_explicit s c H).
    destruct (configure_client_raises env c); reflexivity.
  - right. rewrite (resolve_configuration_fallback s H).
    destruct (load_incluster_config_raises env) as [e |];
      [| left; reflexivity].
    destruct (is_ConfigException e); [| left; reflexivity].
    destruct (load_kube_config_raises env); right; reflexivity.
Qed.

Lemma resolve_configuration_no_transport (s : Store) :
  count_events is_ApiClientInit (trace (resolve_configuration env s)) = 0
  /\ count_events is_PoolManagerClear
       (trace (resolve_configuration env s)) = 0
  /\ yielded (trace (resolve_configuration env s)) = []
  /\ transport_configurations (trace (resolve_configuration env s)) = []
  /\ without_transport (trace (resolve_configuration env s))
     = trace (resolve_configuration env s).
Proof.
  destruct (resolve_configuration_trace s) as [[c H] | [H | H]];
    rewrite H; repeat split; reflexivity.
Qed.

(** Lines 147-153 after lines 139-145. *)
Lemma get_resource_specific_client_run (client_type : string) (s : Store) :
  let rr := resolve_configuration env s in
  get_resource_specific_client env client_type s =
  match result rr with
  | Raise e => mkRun (trace rr) (store rr) (Raise e)
  | Ok _ =>
      match dict_get (module_K8S_CLIENT_TYPES s) client_type with
      | Some k =>
          mkRun (trace rr ++ [EvResourceClientInit k]) (store rr)
                (Ok (mkClient k (default_configuration (store rr))))
      | None =>
          mkRun (trace rr) (store rr)
                (Raise (ValueError
                   (invalid_client_type_message client_type
                      (dict_keys (module_K8S_CLIENT_TYPES s)))))
      end
  end.
Proof.
  intros rr. unfold get_resource_specific_client, Py.bind at 1.
  pose proof (resolve_configuration_table s) as T.
  fold rr in T |- *. clearbody rr. destruct rr as [tr st [[] | e]];
    cbn [result store trace] in *; [| reflexivity].
  unfold Py.try_except, lookup_client_class, Kube.construct, Py.bind,
    Py.get, Py.ret, Py.raise, Py.emit.
  cbn [result store trace]. rewrite T.
  destruct (dict_get (module_K8S_CLIENT_TYPES s) client_type) as [k |];
    cbn; rewrite ?app_nil_r, ?T; reflexivity.
Qed.

(** Lines 101-107 around whatever happens from line 105 on. *)
Lemma get_client_run {A} (client_type : string)
    (configuration : option Configuration)
    (at_yield : KubernetesClient -> M A) (s : Store) :
  let t := mkApiClient (effective_configuration configuration) in
  let inner :=
    (c <- get_resource_specific_client env client_type ;; at_yield c) s in
  get_client env client_type configuration at_yield s =
  mkRun (configuration_events configuration
           ++ EvApiClientInit (effective_configuration configuration)
           :: trace inner ++ [EvPoolManagerClear t; EvApiClientClose t])
        (store inner) (result inner).
Proof.
  intros t inner. unfold get_client.
  set (body := Py.bind (get_resource_specific_client env client_type) _)
    in *.
  subst inner. clearbody body.
  unfold Py.with_, Py.try_finally, Kube.Configuration_init,
    Kube.ApiClient_init, Kube.ApiClient_exit, Kube.pool_manager_clear,
    Py.bind, Py.emit, Py.ret.
  destruct configuration as [c |]; cbn; rewrite <- app_assoc; reflexivity.
Qed.

(** The with-statement when the chain raises. *)
Lemma with_get_client_resolution_raises (client_type : string)
    (configuration : option Configuration)
    (block : KubernetesClient -> BlockExit) (s : Store) (e : PyExn) :
  let rr := resolve_configuration env s in
  let t := mkApiClient (effective_configuration configuration) in
  result rr = Raise e ->
  with_get_client env client_type configuration block s =
  mkRun (configuration_events configuration
           ++ EvApiClientInit (effective_configuration configuration)
           :: trace rr ++ [EvPoolManagerClear t; EvApiClientClose t])
        (store rr) (Raise e).
Proof.
  intros rr t H. unfold with_get_client. rewrite get_client_run.
  unfold Py.bind. rewrite get_resource_specific_client_run.
  fold rr. rewrite H. reflexivity.
Qed.

(** The with-statement when the chain returns and the selector is
    not a key of the table. *)
Lemma with_get_client_invalid (client_type : string)
    (configuration : option Configuration)
    (block : KubernetesClient -> BlockExit) (s : Store) :
  let rr := resolve_configuration env s in
  let t := mkApiClient (effective_configuration configuration) in
  result rr = Ok tt ->
  dict_get (module_K8S_CLIENT_TYPES s) client_type = None ->
  with_get_client env client_type configuration block s =
  mkRun (configuration_events configuration
           ++ EvApiClientInit (effective_configuration configuration)
           :: trace rr ++ [EvPoolManagerClear t; EvApiClientClose t])
        (store rr)
        (Raise (ValueError
           (invalid_client_type_message client_type
              (dict_keys (module_K8S_CLIENT_TYPES s))))).
Proof.
  intros rr t H D. unfold with_get_client. rewrite get_client_run.
  unfold Py.bind. rewrite get_resource_specific_client_run.
  fold rr. rewrite H, D. reflexivity.
Qed.

(** The with-statement when the chain returns and the selector is a
    key of the table: the block runs. *)
Lemma with_get_client_valid (client_type : string)
    (configuration : option Configuration)
    (block : KubernetesClient -> BlockExit) (s : Store)
    (k : ClientClass) :
  let rr := resolve_configuration env s in
  let t := mkApiClient (effective_configuration configuration) in
  let c := mkClient k (default_configuration (store rr)) in
  result rr = Ok tt ->
  dict_get (module_K8S_CLIENT_TYPES s) client_type = Some k ->
  with_get_client env client_type configuration block s =
  mkRun (configuration_events configuration
           ++ EvApiClientInit (effective_configuration configuration)
           :: trace rr
           ++ [EvResourceClientInit k; EvBlock c;
               EvPoolManagerClear t; EvApiClientClose t])
        (store rr) (block_result (block c)).
Proof.
  intros rr t c H D. unfold with_get_client. rewrite get_client_run.
  unfold Py.bind. rewrite get_resource_specific_client_run.
  fold rr. rewrite H, D. cbn [result store trace].
  unfold run_block, Py.bind, Py.emit. cbn [result store trace].
  fold c. rewrite <- !app_assoc.
  destruct (block c); reflexivity.
Qed.

(** A unit result is [Ok tt] or an exception. *)
Lemma result_unit_cases (r : Run unit) :
  result r = Ok tt \/ exists e, result r = Raise e.
Proof. destruct (result r) as [[] | e]; [left | right; exists e]; reflexivity. Qed.

End Runs.

(** ** Facts shared by the properties below *)

Section Shared.

Variable env : Environment.

Lemma with_get_client_store (client_type : string)
    (configuration : option Configuration)
    (block : KubernetesClient -> BlockExit) (s : Store) :
  store (with_get_client env client_type configuration block s) =
  store (resolve_configuration env s).
Proof.
  destruct (result_unit_cases (resolve_configuration env s)) as [H | [e H]].
  - destruct (dict_get (module_K8S_CLIENT_TYPES s) client_type)
      as [k |] eqn:D.
    + rewrite (with_get_client_valid env _ _ _ _ k H D). reflexivity.
    + rewrite (with_get_client_invalid env _ _ _ _ H D). reflexivity.
  - rewrite (with_get_client_resolution_raises env _ _ _ _ e H).
    reflexivity.
Qed.

(** What reaches the with-block: one client, when the chain returned
    and the selector is a key; nothing otherwise. *)
Lemma with_get_client_yielded (client_type : string)
    (configuration : option Configuration)
    (block : KubernetesClient -> BlockExit) (s : Store) :
  let rr := resolve_configuration env s in
  yielded (trace (with_get_client env client_type configuration block s)) =
  match result rr, dict_get (module_K8S_CLIENT_TYPES s) client_type with
  | Ok _, Some k => [mkClient k (default_configuration (store rr))]
  | _, _ => []
  end.
Proof.
  intros rr.
  destruct (resolve_configuration_no_transport env s) as (_ & _ & Y & _).
  fold rr in Y.
  assert (C : yielded (configuration_events configuration) = [])
    by (destruct configuration; reflexivity).
  destruct (result_unit_cases rr) as [H | [e H]].
  - destruct (dict_get (module_K8S_CLIENT_TYPES s) client_type)
      as [k |] eqn:D.
    + rewrite (with_get_client_valid env _ _ _ _ k H D). fold rr.
      rewrite H. cbn [trace]. rewrite yielded_app, C. cbn [yielded app].
      rewrite yielded_app, Y. reflexivity.
    + rewrite (with_get_client_invalid env _ _ _ _ H D). fold rr.
      rewrite H. cbn [trace]. rewrite yielded_app, C. cbn [yielded app].
      rewrite yielded_app, Y. reflexivity.
  - rewrite (with_get_client_resolution_raises env _ _ _ _ e H). fold rr.
    rewrite H. cbn [trace]. rewrite yielded_app, C. cbn [yielded app].
    rewrite yielded_app, Y. reflexivity.
Qed.

(** One transport is opened and its pool is cleared once, whatever
    happens in between. *)
Lemma with_get_client_counts (client_type : string)
    (configuration : option Configuration)
    (block : KubernetesClient -> BlockExit) (s : Store) :
  let r := with_get_client env client_type configuration block s in
  count_events is_ApiClientInit (trace r) = 1 /\
  count_events is_PoolManagerClear (trace r) = 1.
Proof.
  intros r. subst r.
  destruct (resolve_configuration_no_transport env s) as (I & P & _).
  assert (C : count_events is_ApiClientInit
                (configuration_events configuration) = 0
              /\ count_events is_PoolManagerClear
                   (configuration_events configuration) = 0)
    by (destruct configuration; split; reflexivity).
  destruct C as [CI CP].
  destruct (result_unit_cases (resolve_configuration env s)) as [H | [e H]];
    [ destruct (dict_get (module_K8S_CLIENT_TYPES s) client_type)
        as [k |] eqn:D;
      [ rewrite (with_get_client_valid env _ _ _ _ k H D)
      | rewrite (with_get_client_invalid env _ _ _ _ H D) ]
    | rewrite (with_get_client_resolution_raises env _ _ _ _ e H) ];
    cbn [trace];
    rewrite !count_events_app, CI, CP;
    change (?x :: ?l ++ ?m) with ([x] ++ l ++ m);
    rewrite !count_events_app, I, P; split; reflexivity.
Qed.

(** The transport is opened, bound to its configuration, before the
    chain makes its first call. *)
Lemma with_get_client_trace_prefix (client_type : string)
    (configuration : option Configuration)
    (block : KubernetesClient -> BlockExit) (s : Store) :
  exists rest,
    trace (with_get_client env client_type configuration block s)
    = configuration_events configuration
        ++ EvApiClientInit (effective_configuration configuration)
        :: trace (resolve_configuration env s) ++ rest.
Proof.
  destruct (result_unit_cases (resolve_configuration env s)) as [H | [e H]].
  - destruct (dict_get (module_K8S_CLIENT_TYPES s) client_type)
      as [k |] eqn:D.
    + rewrite (with_get_client_valid env _ _ _ _ k H D).
      eexists; reflexivity.
    + rewrite (with_get_client_invalid env _ _ _ _ H D).
      eexists; reflexivity.
  - rewrite (with_get_client_resolution_raises env _ _ _ _ e H).
    eexists; reflexivity.
Qed.

Lemma transport_configurations_app (a b : list Event) :
  transport_configurations (a ++ b)
  = transport_configurations a ++ transport_configurations b.
Proof.
  induction a as [| ev a IH]; [reflexivity |].
  destruct ev; cbn; rewrite IH; reflexivity.
Qed.

Lemma transport_configurations_none (tr : list Event) :
  count_events is_ApiClientInit tr = 0 -> transport_configurations tr = [].
Proof.
  induction tr as [| ev tr IH]; [reflexivity |].
  destruct ev; cbn; intros Z; try discriminate Z; apply IH; exact Z.
Qed.

Lemma with_get_client_transport_configurations (client_type : string)
    (configuration : option Configuration)
    (block : KubernetesClient -> BlockExit) (s : Store) :
  transport_configurations
    (trace (with_get_client env client_type configuration block s))
  = [effective_configuration configuration].
Proof.
  destruct (with_get_client_counts client_type configuration block s)
    as [I _]. cbv zeta in I.
  destruct (with_get_client_trace_prefix client_type configuration block s)
    as [rest E]. rewrite E in I |- *.
  destruct (resolve_configuration_no_transport env s)
    as (I' & _ & _ & T & _).
  assert (R : transport_configurations rest = []).
  { apply transport_configurations_none.
    rewrite count_events_app in I.
    change (?x :: ?l ++ ?m) with ([x] ++ l ++ m) in I.
    rewrite !count_events_app, I' in I.
    destruct configuration; cbn in I; lia. }
  rewrite transport_configurations_app. cbn [transport_configurations].
  rewrite transport_configurations_app, T, R.
  destruct configuration; reflexivity.
Qed.

Lemma without_transport_app (a b : list Event) :
  without_transport (a ++ b) = without_transport a ++ without_transport b.
Proof. apply filter_app. Qed.

Lemma with_get_client_without_transport (client_type : string)
    (configuration : option Configuration)
    (block : KubernetesClient -> BlockExit) (s : Store) :
  let rr := resolve_configuration env s in
  without_transport
    (trace (with_get_client env client_type configuration block s))
  = trace rr ++
    match result rr, dict_get (module_K8S_CLIENT_TYPES s) client_type with
    | Ok _, Some k =>
        [EvResourceClientInit k;
         EvBlock (mkClient k (default_configuration (store rr)))]
    | _, _ => []
    end.
Proof.
  intros rr.
  destruct (resolve_configuration_no_transport env s) as (_ & _ & _ & _ & W).
  fold rr in W.
  assert (C : without_transport (configuration_events configuration) = [])
    by (destruct configuration; reflexivity).
  destruct (result_unit_cases rr) as [H | [e H]];
    [ destruct (dict_get (module_K8S_CLIENT_TYPES s) client_type)
        as [k |] eqn:D;
      [ rewrite (with_get_client_valid env _ _ _ _ k H D)
      | rewrite (with_get_client_invalid env _ _ _ _ H D) ]
    | rewrite (with_get_client_resolution_raises env _ _ _ _ e H) ];
    fold rr; rewrite H; cbn [trace];
    rewrite without_transport_app, C;
    change (?x :: ?l ++ ?m) with ([x] ++ l ++ m);
    rewrite !without_transport_app, W; reflexivity.
Qed.

End Shared.

(** ** Invalid selectors and the transport *)

(** C1, as worded, at a concrete call: [get_client("widgets")] inside a
    pod does raise the invalid-type error, but it is not true that no
    transport was opened, no pool release was needed and the ambient
    connection state was left alone. *)
Lemma C1_fail_fast_counterexample :
  let s := initial_store None LibraryDefaults in
  let r := with_get_client env_incluster "widgets" None (fun _ => Completes) s in
  ~ ((exists m, result r = Raise (ValueError m))
     /\ count_events is_ApiClientInit (trace r) = 0
     /\ count_events is_PoolManagerClear (trace r) = 0
     /\ store r = s).
Proof.
  intros s r C. destruct C as (_ & H & _). vm_compute in H. discriminate H.
Qed.

(** C1, amended: for a selector that is none of "apps", "batch" and
    "core", [get_client] first opens the generic transport and runs the
    resolution chain; the with-block never runs; the pool of the
    transport is cleared once and the transport closed before the error
    leaves; the error is the invalid-type [ValueError] when the chain
    returned, and the chain's own error otherwise. *)
Theorem C1_invalid_type_raised_after_transport
    (env : Environment) (cluster_config : option KubernetesClusterConfig)
    (ambient : Configuration) (client_type : string)
    (configuration : option Configuration)
    (block : KubernetesClient -> BlockExit) :
  client_type <> "apps" -> client_type <> "batch" -> client_type <> "core" ->
  let s := initial_store cluster_config ambient in
  let r := with_get_client env client_type configuration block s in
  let rr := resolve_configuration env s in
  let t := mkApiClient (effective_configuration configuration) in
  trace r = configuration_events configuration
              ++ EvApiClientInit (effective_configuration configuration)
              :: trace rr ++ [EvPoolManagerClear t; EvApiClientClose t]
  /\ store r = store rr
  /\ result r =
       match result rr with
       | Ok _ => Raise (ValueError
                   (invalid_client_type_message client_type
                      ["apps"; "batch"; "core"]))
       | Raise e => Raise e
       end
  /\ yielded (trace r) = []
  /\ count_events is_PoolManagerClear (trace r) = 1.
Proof.
  intros N1 N2 N3 s r rr t.
  assert (D : dict_get (module_K8S_CLIENT_TYPES s) client_type = None)
    by (apply dict_get_K8S_CLIENT_TYPES_None; auto).
  assert (Y := with_get_client_yielded env client_type configuration block s).
  assert (P := proj2 (with_get_client_counts env client_type configuration
                        block s)).
  cbv zeta in Y, P. fold r in Y, P. fold rr in Y. rewrite D in Y.
  assert (Y' : yielded (trace r) = []) by (destruct (result rr); exact Y).
  destruct (result_unit_cases rr) as [H | [e H]]; subst r; rewrite H.
  - rewrite (with_get_client_invalid env _ _ _ _ H D) in *.
    repeat split; assumption.
  - rewrite (with_get_client_resolution_raises env _ _ _ _ e H) in *.
    repeat split; assumption.
Qed.

Lemma C1_invalid_type_raised_after_transport_witness :
  let r := with_get_client env_incluster "widgets" None (fun _ => Completes)
             (initial_store None LibraryDefaults) in
  "widgets" <> "apps"
  /\ result r = Raise (ValueError
       "Invalid client type provided 'widgets'. Must be one of 'apps' 'batch' 'core'.")
  /\ count_events is_PoolManagerClear (trace r) = 1.
Proof.
  intros r.
  assert (N1 : "widgets" <> "apps") by discriminate.
  assert (N2 : "widgets" <> "batch") by discriminate.
  assert (N3 : "widgets" <> "core") by discriminate.
  destruct (C1_invalid_type_raised_after_transport env_incluster None
              LibraryDefaults "widgets" None (fun _ => Completes) N1 N2 N3)
    as (_ & _ & R & _ & P).
  split; [exact N1 | split; [exact R | exact P]].
Defined.

(** ** Release of the pool *)

(** C2: every call of [get_client] opens one generic transport and
    clears its pool exactly once, as the last thing but closing the
    transport; when the with-block was entered, the release follows the
    block directly, whether the block completed, returned or raised, and
    the with-statement ends the way the block did: a raised exception
    leaves unchanged, after the release. *)
Theorem C2_pool_cleared_once_on_every_exit
    (env : Environment) (s : Store) (client_type : string)
    (configuration : option Configuration)
    (block : KubernetesClient -> BlockExit) :
  let r := with_get_client env client_type configuration block s in
  let t := mkApiClient (effective_configuration configuration) in
  count_events is_ApiClientInit (trace r) = 1
  /\ count_events is_PoolManagerClear (trace r) = 1
  /\ (exists pre,
        trace r = pre ++ [EvPoolManagerClear t; EvApiClientClose t])
  /\ (forall c, In c (yielded (trace r)) ->
        (exists pre,
           trace r = pre ++ [EvBlock c; EvPoolManagerClear t;
                             EvApiClientClose t])
        /\ result r =
             match block c with
             | Completes => Ok FallThrough
             | Returns v => Ok (Return v)
             | Raises e => Raise e
             end).
Proof.
  intros r t.
  destruct (with_get_client_counts env client_type configuration block s)
    as [I P]. fold r in I, P.
  assert (Y := with_get_client_yielded env client_type configuration block s).
  cbv zeta in Y. fold r in Y.
  split; [exact I | split; [exact P |]].
  destruct (result_unit_cases (resolve_configuration env s)) as [H | [e H]].
  - destruct (dict_get (module_K8S_CLIENT_TYPES s) client_type)
      as [k |] eqn:D.
    + rewrite H in Y. subst r.
      rewrite (with_get_client_valid env _ _ _ _ k H D) in *.
      cbn [trace result] in *. split.
      * eexists. rewrite app_comm_cons, app_assoc.
        change [EvResourceClientInit k; ?b; ?x; ?y]
          with ([EvResourceClientInit k; b] ++ [x; y]).
        rewrite app_assoc. reflexivity.
      * intros c Hc. rewrite Y in Hc. destruct Hc as [<- | []].
        split; [| reflexivity].
        eexists. rewrite app_comm_cons, app_assoc.
        change [EvResourceClientInit k; ?b; ?x; ?y]
          with ([EvResourceClientInit k] ++ [b; x; y]).
        rewrite app_assoc. reflexivity.
    + rewrite H in Y. subst r.
      rewrite (with_get_client_invalid env _ _ _ _ H D) in *.
      cbn [trace result] in *. split.
      * eexists. rewrite app_comm_cons, app_assoc. reflexivity.
      * intros c Hc. rewrite Y in Hc. destruct Hc.
  - rewrite H in Y. subst r.
    rewrite (with_get_client_resolution_raises env _ _ _ _ e H) in *.
    cbn [trace result] in *. split.
    + eexists. rewrite app_comm_cons, app_assoc. reflexivity.
    + intros c Hc. rewrite Y in Hc. destruct Hc.
Qed.

Lemma C2_pool_cleared_once_on_every_exit_witness :
  let s := initial_store (Some cluster_dev) LibraryDefaults in
  let c := mkClient CoreV1Api (LoadedFromClusterConfig cluster_dev) in
  let r := with_get_client env_incluster "core" None
             (fun _ => Raises api_failure) s in
  In c (yielded (trace r))
  /\ result r = Raise api_failure
  /\ count_events is_PoolManagerClear (trace r) = 1.
Proof.
  intros s c r.
  assert (Hc : In c (yielded (trace r))) by (left; reflexivity).
  destruct (C2_pool_cleared_once_on_every_exit env_incluster s "core" None
              (fun _ => Raises api_failure)) as (_ & P & _ & B).
  destruct (B c Hc) as [_ R].
  split; [exact Hc | split; [exact R | exact P]].
Defined.

(** ** The resolution chain *)

(** C3: when the block holds a cluster configuration, the chain calls
    its [configure_client] and nothing else; neither
    [load_incluster_config] nor [load_kube_config] is called, by the
    chain or by the rest of [get_resource_specific_client]; and an
    exception of [configure_client] is the exception of the chain and
    of [get_resource_specific_client]. *)
Theorem C3_explicit_configuration_only
    (env : Environment) (s : Store) (c : KubernetesClusterConfig)
    (client_type : string) :
  self_cluster_config s = Some c ->
  let rr := resolve_configuration env s in
  let r := get_resource_specific_client env client_type s in
  trace rr = [EvConfigureClient c]
  /\ result rr = match configure_client_raises env c with
                 | Some e => Raise e
                 | None => Ok tt
                 end
  /\ count_events is_LoadInclusterConfig (trace r) = 0
  /\ count_events is_LoadKubeConfig (trace r) = 0
  /\ (forall e, configure_client_raises env c = Some e ->
        result r = Raise e /\ trace r = [EvConfigureClient c]).
Proof.
  intros H rr r. subst r.
  rewrite get_resource_specific_client_run. fold rr. subst rr.
  rewrite (resolve_configuration_explicit env s c H).
  destruct (configure_client_raises env c) as [e |]; cbn [trace result store].
  - split; [reflexivity | split; [reflexivity |]].
    split; [reflexivity | split; [reflexivity |]].
    intros e' E. injection E as <-. split; reflexivity.
  - destruct (dict_get (module_K8S_CLIENT_TYPES s) client_type);
      cbn [trace result store];
      (split; [reflexivity | split; [reflexivity |]]);
      (split; [reflexivity | split; [reflexivity |]]);
      intros e' E; discriminate E.
Qed.

Lemma C3_explicit_configuration_only_witness :
  let s := initial_store (Some cluster_dev) LoadedKubeConfig in
  self_cluster_config s = Some cluster_dev
  /\ trace (resolve_configuration env_bare s) = [EvConfigureClient cluster_dev]
  /\ result (get_resource_specific_client env_bare "batch" s)
     = Raise (ConfigException "Invalid kube-config dict.").
Proof.
  intros s.
  destruct (C3_explicit_configuration_only env_bare s cluster_dev "batch"
              eq_refl) as (T & _ & _ & _ & E).
  split; [reflexivity | split; [exact T |]].
  exact (proj1 (E _ eq_refl)).
Defined.



(** ** Dispatch on the selector *)

(** C5: with the table of lines 15-19, "apps" hands an [AppsV1Api] and
    nothing else to the with-block, "batch" a [BatchV1Api], "core" a
    [CoreV1Api] (one client when the chain returned, none when the chain
    raised); any other string hands nothing to the block and ends in an
    exception. *)
Theorem C5_selector_dispatch
    (env : Environment) (cluster_config : option KubernetesClusterConfig)
    (ambient : Configuration) (client_type : string)
    (configuration : option Configuration)
    (block : KubernetesClient -> BlockExit) :
  let s := initial_store cluster_config ambient in
  let r := with_get_client env client_type configuration block s in
  let classes := map client_class (yielded (trace r)) in
  let resolved :=
    match result (resolve_configuration env s) with
    | Ok _ => true
    | Raise _ => false
    end in
  (client_type = "apps" ->
     classes = if resolved then [AppsV1Api] else [])
  /\ (client_type = "batch" ->
        classes = if resolved then [BatchV1Api] else [])
  /\ (client_type = "core" ->
        classes = if resolved then [CoreV1Api] else [])
  /\ (client_type <> "apps" -> client_type <> "batch" ->
      client_type <> "core" ->
        yielded (trace r) = [] /\ exists e, result r = Raise e).
Proof.
  intros s r classes resolved. subst classes resolved.
  assert (Y := with_get_client_yielded env client_type configuration block s).
  cbv zeta in Y. fold r in Y. rewrite Y.
  repeat split.
  - intros ->. cbn [s initial_store module_K8S_CLIENT_TYPES].
    destruct (result (resolve_configuration env _)); reflexivity.
  - intros ->. cbn [s initial_store module_K8S_CLIENT_TYPES].
    destruct (result (resolve_configuration env _)); reflexivity.
  - intros ->. cbn [s initial_store module_K8S_CLIENT_TYPES].
    destruct (result (resolve_configuration env _)); reflexivity.
  - assert (D : dict_get (module_K8S_CLIENT_TYPES s) client_type = None)
      by (apply dict_get_K8S_CLIENT_TYPES_None; auto).
    rewrite D. destruct (result (resolve_configuration env s)); reflexivity.
  - assert (D : dict_get (module_K8S_CLIENT_TYPES s) client_type = None)
      by (apply dict_get_K8S_CLIENT_TYPES_None; auto).
    subst r.
    destruct (result_unit_cases (resolve_configuration env s)) as [R | [e R]].
    + rewrite (with_get_client_invalid env _ _ _ _ R D).
      eexists; reflexivity.
    + rewrite (with_get_client_resolution_raises env _ _ _ _ e R).
      eexists; reflexivity.
Qed.

Lemma C5_selector_dispatch_witness :
  let s := initial_store None LibraryDefaults in
  map client_class
    (yielded (trace (with_get_client env_workstation "batch" None
                       (fun _ => Completes) s)))
  = [BatchV1Api].
Proof.
  intros s.
  destruct (C5_selector_dispatch env_workstation None LibraryDefaults "batch"
              None (fun _ => Completes)) as (_ & B & _).
  exact (B eq_refl).
Defined.

(** ** The error message *)

(** C6: for a selector that is none of the three keys, when the chain
    returned, the error is a [ValueError] whose message contains the
    selector as it was given and the three keys, each in quotes, in the
    order of the table. *)
Theorem C6_message_names_value_and_valid_set
    (env : Environment) (cluster_config : option KubernetesClusterConfig)
    (ambient : Configuration) (client_type : string) :
  client_type <> "apps" -> client_type <> "batch" -> client_type <> "core" ->
  let s := initial_store cluster_config ambient in
  let m := invalid_client_type_message client_type
             (dict_keys K8S_CLIENT_TYPES) in
  (result (resolve_configuration env s) = Ok tt ->
     result (get_resource_specific_client env client_type s)
     = Raise (ValueError m))
  /\ str_contains m client_type = true
  /\ str_contains m "'apps' 'batch' 'core'" = true
  /\ (forall k, In k ["apps"; "batch"; "core"] ->
        str_contains m (repr k) = true).
Proof.
  intros N1 N2 N3 s m.
  assert (D : dict_get (module_K8S_CLIENT_TYPES s) client_type = None)
    by (apply dict_get_K8S_CLIENT_TYPES_None; auto).
  split; [| split; [| split]].
  - intros R. rewrite get_resource_specific_client_run. rewrite R, D.
    reflexivity.
  - apply str_contains_middle.
  - unfold m, invalid_client_type_message.
    apply str_contains_later, str_contains_later. reflexivity.
  - intros k [<- | [<- | [<- | []]]]; unfold m, invalid_client_type_message;
      apply str_contains_later, str_contains_later; reflexivity.
Qed.

Lemma C6_message_names_value_and_valid_set_witness :
  "widgets" <> "apps"
  /\ result (get_resource_specific_client env_workstation "widgets"
               (initial_store None LibraryDefaults))
     = Raise (ValueError
         "Invalid client type provided 'widgets'. Must be one of 'apps' 'batch' 'core'.")
  /\ str_contains
       (invalid_client_type_message "widgets" (dict_keys K8S_CLIENT_TYPES))
       "widgets" = true.
Proof.
  assert (N1 : "widgets" <> "apps") by discriminate.
  assert (N2 : "widgets" <> "batch") by discriminate.
  assert (N3 : "widgets" <> "core") by discriminate.
  destruct (C6_message_names_value_and_valid_set env_workstation None
              LibraryDefaults "widgets" N1 N2 N3) as (R & V & _).
  split; [exact N1 | split; [exact (R eq_refl) | exact V]].
Defined.

(** ** The configuration of the transport *)

(** C7, as worded, at a concrete call: with no configuration argument
    and a stored cluster configuration, the generic transport is bound
    to the library defaults, not to the configuration that the chain
    establishes from the stored cluster configuration. *)
Lemma C7_transport_configuration_counterexample :
  let s := initial_store (Some cluster_dev) LibraryDefaults in
  let r := with_get_client env_incluster "core" None (fun _ => Completes) s in
  let rr := resolve_configuration env_incluster s in
  ~ (transport_configurations (trace r) = [default_configuration (store rr)]).
Proof.
  intros s r rr H. vm_compute in H. discriminate H.
Qed.

(** C7, amended: the generic transport is bound to the configuration
    given by the caller, or else to a default [Configuration()] built
    and bound before the chain runs.  The chain runs after that on
    every call, with the block's stored cluster configuration (if any)
    as its explicit input, and what it establishes is the process-wide
    default configuration that the call leaves behind, not the
    configuration of the transport. *)
Theorem C7_transport_bound_before_resolution
    (env : Environment) (s : Store) (client_type : string)
    (configuration : option Configuration)
    (block : KubernetesClient -> BlockExit) :
  let r := with_get_client env client_type configuration block s in
  let rr := resolve_configuration env s in
  transport_configurations (trace r)
  = [match configuration with Some c => c | None => LibraryDefaults end]
  /\ (exists rest,
        trace r = configuration_events configuration
                    ++ EvApiClientInit (effective_configuration configuration)
                    :: trace rr ++ rest)
  /\ store r = store rr
  /\ (forall c, self_cluster_config s = Some c ->
        trace rr = [EvConfigureClient c]).
Proof.
  intros r rr.
  split; [| split; [| split; [| ]]].
  - apply (with_get_client_transport_configurations env).
  - apply (with_get_client_trace_prefix env).
  - apply (with_get_client_store env).
  - intros c H. subst rr. rewrite (resolve_configuration_explicit env s c H).
    destruct (configure_client_raises env c); reflexivity.
Qed.

Lemma C7_transport_bound_before_resolution_witness :
  let s := initial_store (Some cluster_dev) LibraryDefaults in
  let r := with_get_client env_incluster "core" None (fun _ => Completes) s in
  self_cluster_config s = Some cluster_dev
  /\ transport_configurations (trace r) = [LibraryDefaults]
  /\ default_configuration (store r) = LoadedFromClusterConfig cluster_dev
  /\ trace (resolve_configuration env_incluster s)
     = [EvConfigureClient cluster_dev].
Proof.
  intros s r.
  destruct (C7_transport_bound_before_resolution env_incluster s "core" None
              (fun _ => Completes)) as (T & _ & S & E).
  split; [reflexivity | split; [exact T | split; [| exact (E _ eq_refl)]]].
  fold r in S. rewrite S. reflexivity.
Defined.

(** ** Order of resolution and validation *)

(** What a chain that returned has installed as the process-wide
    default configuration. *)
Lemma resolve_configuration_installs (env : Environment) (s : Store) :
  result (resolve_configuration env s) = Ok tt ->
  default_configuration (store (resolve_configuration env s)) =
  match self_cluster_config s with
  | Some c => LoadedFromClusterConfig c
  | None =>
      match load_incluster_config_raises env with
      | None => LoadedInCluster
      | Some _ => LoadedKubeConfig
      end
  end.
Proof.
  destruct (self_cluster_config s) as [c |] eqn:H.
  - rewrite (resolve_configuration_explicit env s c H).
    destruct (configure_client_raises env c); cbn [result store];
      intros R; [discriminate R | reflexivity].
  - rewrite (resolve_configuration_fallback env s H).
    destruct (load_incluster_config_raises env) as [e0 |];
      [| intros _; reflexivity].
    destruct (is_ConfigException e0);
      [| cbn [result]; intros R; discriminate R].
    destruct (load_kube_config_raises env); cbn [result store];
      intros R; [discriminate R | reflexivity].
Qed.

(** C8: [get_resource_specific_client] runs the chain before it looks
    the selector up.  Its trace starts with the chain's calls and its
    store is the one the chain left; when the chain raises, that
    exception is the result and nothing else is called.  For a
    selector that is not a key the chain's calls are made all the same
    ([configure_client] of the stored cluster configuration, or
    [load_incluster_config] first), and when the chain returned, the
    process-wide default configuration has been replaced by the one of
    the mechanism that applied, although the result is the
    invalid-type [ValueError]. *)
Theorem C8_resolution_precedes_validation
    (env : Environment) (cluster_config : option KubernetesClusterConfig)
    (ambient : Configuration) (client_type : string) :
  let s := initial_store cluster_config ambient in
  let r := get_resource_specific_client env client_type s in
  let rr := resolve_configuration env s in
  (exists rest, trace r = trace rr ++ rest)
  /\ store r = store rr
  /\ (forall e, result rr = Raise e ->
        result r = Raise e /\ trace r = trace rr)
  /\ (dict_get K8S_CLIENT_TYPES client_type = None ->
        trace r = trace rr
        /\ match cluster_config with
           | Some c => trace r = [EvConfigureClient c]
           | None => exists rest, trace r = EvLoadInclusterConfig :: rest
           end
        /\ (result rr = Ok tt ->
              result r = Raise (ValueError
                (invalid_client_type_message client_type
                   ["apps"; "batch"; "core"]))
              /\ default_configuration (store r) =
                 match cluster_config with
                 | Some c => LoadedFromClusterConfig c
                 | None =>
                     match load_incluster_config_raises env with
                     | None => LoadedInCluster
                     | Some _ => LoadedKubeConfig
                     end
                 end)).
Proof.
  intros s r rr.
  assert (calls : match cluster_config with
                  | Some c => trace rr = [EvConfigureClient c]
                  | None => exists rest,
                      trace rr = EvLoadInclusterConfig :: rest
                  end).
  { unfold rr. destruct cluster_config as [c |].
    - rewrite (resolve_configuration_explicit env s c eq_refl).
      destruct (configure_client_raises env c); reflexivity.
    - rewrite (resolve_configuration_fallback env s eq_refl).
      destruct (load_incluster_config_raises env) as [e0 |];
        [| eexists; reflexivity].
      destruct (is_ConfigException e0); [| eexists; reflexivity].
      destruct (load_kube_config_raises env); eexists; reflexivity. }
  pose proof (resolve_configuration_installs env s) as installs.
  fold rr in installs.
  change (self_cluster_config s) with cluster_config in installs.
  subst r. rewrite get_resource_specific_client_run. fold rr.
  change (module_K8S_CLIENT_TYPES s) with K8S_CLIENT_TYPES.
  destruct (result rr) as [[] | e].
  - destruct (dict_get K8S_CLIENT_TYPES client_type) as [k |];
      cbn [trace store result].
    + split; [eexists; reflexivity | split; [reflexivity |]].
      split; [intros e E; discriminate E | intros D; discriminate D].
    + split; [exists []; rewrite app_nil_r; reflexivity |].
      split; [reflexivity |].
      split; [intros e E; discriminate E |].
      intros _. split; [reflexivity | split; [exact calls |]].
      intros _. split; [reflexivity | exact (installs eq_refl)].
  - cbn [trace store result].
    split; [exists []; rewrite app_nil_r; reflexivity |].
    split; [reflexivity |].
    split; [intros e' E; injection E as <-; split; reflexivity |].
    intros _. split; [reflexivity | split; [exact calls |]].
    intros E; discriminate E.
Qed.

Lemma C8_resolution_precedes_validation_witness :
  let s := initial_store None LibraryDefaults in
  let r := get_resource_specific_client env_broken_pod "widgets" s in
  let r' := get_resource_specific_client env_incluster "widgets" s in
  dict_get K8S_CLIENT_TYPES "widgets" = None
  /\ result (resolve_configuration env_broken_pod s)
     = Raise (OtherException "PermissionError" "token")
  /\ result r = Raise (OtherException "PermissionError" "token")
  /\ trace r = [EvLoadInclusterConfig]
  /\ result (resolve_configuration env_incluster s) = Ok tt
  /\ result r' = Raise (ValueError
       "Invalid client type provided 'widgets'. Must be one of 'apps' 'batch' 'core'.")
  /\ default_configuration s = LibraryDefaults
  /\ default_configuration (store r') = LoadedInCluster.
Proof.
  intros s r r'.
  destruct (C8_resolution_precedes_validation env_broken_pod None
              LibraryDefaults "widgets") as (_ & _ & E & I).
  destruct (E _ eq_refl) as [R _].
  destruct (I eq_refl) as [T _].
  destruct (C8_resolution_precedes_validation env_incluster None
              LibraryDefaults "widgets") as (_ & _ & _ & I').
  destruct (I' eq_refl) as (_ & _ & V).
  destruct (V eq_refl) as [R' D'].
  split; [reflexivity | split; [reflexivity | split; [exact R |]]].
  split; [exact T | split; [reflexivity | split; [exact R' |]]].
  split; [reflexivity | exact D'].
Defined.

(** ** The yielded client and the configuration argument *)

(** C9: the client handed to the with-block is built with no argument,
    from the process-wide default configuration that the chain left,
    and so does not depend on the configuration argument: two calls
    that differ only in that argument hand the same client to the
    block, end the same way, leave the same store and make the same
    calls apart from those of the generic transport, which alone is
    bound to the argument. *)
Theorem C9_client_independent_of_configuration
    (env : Environment) (s : Store) (client_type : string)
    (block : KubernetesClient -> BlockExit)
    (configuration1 configuration2 : option Configuration) :
  let r1 := with_get_client env client_type configuration1 block s in
  let r2 := with_get_client env client_type configuration2 block s in
  yielded (trace r1) = yielded (trace r2)
  /\ result r1 = result r2
  /\ store r1 = store r2
  /\ without_transport (trace r1) = without_transport (trace r2)
  /\ (forall c, In c (yielded (trace r1)) ->
        client_configuration c
        = default_configuration (store (resolve_configuration env s)))
  /\ transport_configurations (trace r1)
     = [effective_configuration configuration1]
  /\ transport_configurations (trace r2)
     = [effective_configuration configuration2].
Proof.
  intros r1 r2.
  assert (Y1 := with_get_client_yielded env client_type configuration1 block s).
  assert (Y2 := with_get_client_yielded env client_type configuration2 block s).
  cbv zeta in Y1, Y2. fold r1 in Y1. fold r2 in Y2.
  split; [rewrite Y1, Y2; reflexivity |].
  split.
  { subst r1 r2.
    destruct (result_unit_cases (resolve_configuration env s)) as [H | [e H]].
    - destruct (dict_get (module_K8S_CLIENT_TYPES s) client_type)
        as [k |] eqn:D.
      + rewrite !(with_get_client_valid env _ _ _ _ k H D). reflexivity.
      + rewrite !(with_get_client_invalid env _ _ _ _ H D). reflexivity.
    - rewrite !(with_get_client_resolution_raises env _ _ _ _ e H).
      reflexivity. }
  split; [unfold r1, r2; rewrite !with_get_client_store; reflexivity |].
  split;
    [unfold r1, r2; rewrite !with_get_client_without_transport; reflexivity |].
  split.
  { intros c Hc. rewrite Y1 in Hc.
    destruct (result (resolve_configuration env s)) as [[] | e];
      [| destruct Hc].
    destruct (dict_get (module_K8S_CLIENT_TYPES s) client_type);
      [| destruct Hc].
    destruct Hc as [<- | []]. reflexivity. }
  split.
  - apply (with_get_client_transport_configurations env).
  - apply (with_get_client_transport_configurations env).
Qed.

Lemma C9_client_independent_of_configuration_witness :
  let s := initial_store None LibraryDefaults in
  let c := mkClient AppsV1Api LoadedKubeConfig in
  let r1 := with_get_client env_workstation "apps" None
              (fun _ => Returns 7) s in
  let r2 := with_get_client env_workstation "apps"
              (Some (CallerBuilt "staging")) (fun _ => Returns 7) s in
  In c (yielded (trace r1))
  /\ yielded (trace r2) = [c]
  /\ client_configuration c
     = default_configuration (store (resolve_configuration env_workstation s))
  /\ transport_configurations (trace r2) = [CallerBuilt "staging"].
Proof.
  intros s c r1 r2.
  assert (Hc : In c (yielded (trace r1))) by (left; reflexivity).
  destruct (C9_client_independent_of_configuration env_workstation s "apps"
              (fun _ => Returns 7) None (Some (CallerBuilt "staging")))
    as (Y & _ & _ & _ & D & _ & T).
  split; [exact Hc | split; [| split; [exact (D c Hc) | exact T]]].
  fold r1 r2 in Y. rewrite <- Y. reflexivity.
Defined.

(** ** The block's own state *)

(** C10: neither [get_client] nor [get_resource_specific_client]
    changes the block's [cluster_config] or the table
    [K8S_CLIENT_TYPES], whatever the store, the selector, the
    configuration argument, the outcome of the library calls and the
    way the with-block ends. *)
Theorem C10_credentials_and_table_unchanged
    (env : Environment) (s : Store) (client_type : string)
    (configuration : option Configuration)
    (block : KubernetesClient -> BlockExit) :
  let r := with_get_client env client_type configuration block s in
  let g := get_resource_specific_client env client_type s in
  self_cluster_config (store r) = self_cluster_config s
  /\ module_K8S_CLIENT_TYPES (store r) = module_K8S_CLIENT_TYPES s
  /\ self_cluster_config (store g) = self_cluster_config s
  /\ module_K8S_CLIENT_TYPES (store g) = module_K8S_CLIENT_TYPES s.
Proof.
  intros r g.
  assert (G : store g = store (resolve_configuration env s)).
  { subst g. rewrite get_resource_specific_client_run.
    destruct (result (resolve_configuration env s)) as [[] | e];
      [| reflexivity].
    destruct (dict_get (module_K8S_CLIENT_TYPES s) client_type);
      reflexivity. }
  unfold r. rewrite with_get_client_store, G.
  rewrite resolve_configuration_cluster_config, resolve_configuration_table.
  repeat split.
Qed.


(** * Further properties of the module *)

(** ** Facts shared by the further properties *)

Section More.

Variable env : Environment.

(** [get_client] around arbitrary code at the [yield], when that code
    is reached. *)
Lemma get_client_reached {A} (client_type : string)
    (configuration : option Configuration)
    (at_yield : KubernetesClient -> M A) (s : Store) (k : ClientClass) :
  let rr := resolve_configuration env s in
  let t := mkApiClient (effective_configuration configuration) in
  let c := mkClient k (default_configuration (store rr)) in
  let b := at_yield c (store rr) in
  result rr = Ok tt ->
  dict_get (module_K8S_CLIENT_TYPES s) client_type = Some k ->
  get_client env client_type configuration at_yield s =
  mkRun (configuration_events configuration
           ++ EvApiClientInit (effective_configuration configuration)
           :: trace rr ++ EvResourceClientInit k
           :: trace b ++ [EvPoolManagerClear t; EvApiClientClose t])
        (store b) (result b).
Proof.
  intros rr t c b H D. rewrite get_client_run.
  unfold Py.bind. rewrite get_resource_specific_client_run.
  fold rr. rewrite H, D. cbn [result store trace]. fold c b.
  rewrite <- !app_assoc. reflexivity.
Qed.

(** ... and when it is not: the run is the same whatever the code. *)
Lemma get_client_not_reached {A} (client_type : string)
    (configuration : option Configuration)
    (at_yield : KubernetesClient -> M A) (s : Store) :
  let rr := resolve_configuration env s in
  let t := mkApiClient (effective_configuration configuration) in
  (exists e, result rr = Raise e)
  \/ dict_get (module_K8S_CLIENT_TYPES s) client_type = None ->
  get_client env client_type configuration at_yield s =
  mkRun (configuration_events configuration
           ++ EvApiClientInit (effective_configuration configuration)
           :: trace rr ++ [EvPoolManagerClear t; EvApiClientClose t])
        (store rr)
        (match result rr with
         | Raise e => Raise e
         | Ok _ => Raise (ValueError
                     (invalid_client_type_message client_type
                        (dict_keys (module_K8S_CLIENT_TYPES s))))
         end).
Proof.
  intros rr t H. rewrite get_client_run.
  unfold Py.bind. rewrite get_resource_specific_client_run. fold rr.
  destruct (result rr) as [[] | e].
  - destruct H as [[e E] | D]; [discriminate E |]. rewrite D. reflexivity.
  - reflexivity.
Qed.


(** Running the chain again in the store it left changes nothing. *)
Lemma resolve_configuration_idempotent (s : Store) :
  resolve_configuration env (store (resolve_configuration env s))
  = resolve_configuration env s.
Proof.
  destruct (self_cluster_config s) as [c |] eqn:H.
  - rewrite (resolve_configuration_explicit env s c H).
    destruct (configure_client_raises env c) as [e |] eqn:E;
      cbn [store].
    + rewrite (resolve_configuration_explicit env s c H), E. reflexivity.
    + rewrite (resolve_configuration_explicit env
                 (mkStore (self_cluster_config s) (module_K8S_CLIENT_TYPES s)
                          (LoadedFromClusterConfig c)) c H), E.
      reflexivity.
  - rewrite (resolve_configuration_fallback env s H).
    destruct (load_incluster_config_raises env) as [e |] eqn:E.
    + destruct (is_ConfigException e) eqn:I.
      * destruct (load_kube_config_raises env) as [e' |] eqn:K; cbn [store].
        -- rewrite (resolve_configuration_fallback env s H), E, I, K.
           reflexivity.
        -- rewrite (resolve_configuration_fallback env
                      (mkStore (self_cluster_config s)
                               (module_K8S_CLIENT_TYPES s) LoadedKubeConfig)
                      H), E, I, K.
           reflexivity.
      * cbn [store].
        rewrite (resolve_configuration_fallback env s H), E, I. reflexivity.
    + cbn [store].
      rewrite (resolve_configuration_fallback env
                 (mkStore (self_cluster_config s) (module_K8S_CLIENT_TYPES s)
                          LoadedInCluster) H), E.
      reflexivity.
Qed.

(** The with-statement reads nothing of the store but what the chain
    and the lookup read. *)
Lemma with_get_client_after_chain (client_type : string)
    (configuration : option Configuration)
    (block : KubernetesClient -> BlockExit) (s : Store) :
  with_get_client env client_type configuration block
    (store (resolve_configuration env s))
  = with_get_client env client_type configuration block s.
Proof.
  pose proof (resolve_configuration_idempotent s) as I.
  pose proof (resolve_configuration_table env s) as T.
  destruct (result_unit_cases (resolve_configuration env s)) as [H | [e H]].
  - destruct (dict_get (module_K8S_CLIENT_TYPES s) client_type)
      as [k |] eqn:D.
    + rewrite (with_get_client_valid env client_type configuration block s
                 k H D).
      rewrite (with_get_client_valid env client_type configuration block
                 (store (resolve_configuration env s)) k);
        rewrite ?I, ?T; auto.
    + rewrite (with_get_client_invalid env client_type configuration block s
                 H D).
      rewrite (with_get_client_invalid env client_type configuration block
                 (store (resolve_configuration env s)));
        rewrite ?I, ?T; auto.
  - rewrite (with_get_client_resolution_raises env client_type configuration
               block s e H).
    rewrite (with_get_client_resolution_raises env client_type configuration
               block (store (resolve_configuration env s)) e);
      rewrite ?I; auto.
Qed.

End More.


(** ** Arbitrary code in the with-block *)

(** X1: whatever the code of the with-block does (it may call the
    library, change the store, raise, or acquire another client), when
    it is reached it runs between the construction of the resource
    client and the clearing of the pool; the with-statement ends with
    the block's result and the block's store, and clearing and closing
    come after all of the block's calls.  When the chain raises or the
    selector is no key, the run does not depend on the block at all. *)
Theorem X1_release_follows_arbitrary_block_code {A : Type}
    (env : Environment) (s : Store) (client_type : string)
    (configuration : option Configuration)
    (at_yield : KubernetesClient -> M A) :
  let rr := resolve_configuration env s in
  let t := mkApiClient (effective_configuration configuration) in
  (forall k,
     result rr = Ok tt ->
     dict_get (module_K8S_CLIENT_TYPES s) client_type = Some k ->
     let b := at_yield (mkClient k (default_configuration (store rr)))
                (store rr) in
     get_client env client_type configuration at_yield s =
     mkRun (configuration_events configuration
              ++ EvApiClientInit (effective_configuration configuration)
              :: trace rr ++ EvResourceClientInit k
              :: trace b ++ [EvPoolManagerClear t; EvApiClientClose t])
           (store b) (result b))
  /\ ((exists e, result rr = Raise e)
      \/ dict_get (module_K8S_CLIENT_TYPES s) client_type = None ->
      forall at_yield' : KubernetesClient -> M A,
        get_client env client_type configuration at_yield s
        = get_client env client_type configuration at_yield' s).
Proof.
  intros rr t. split.
  - intros k H D b. apply (get_client_reached env); assumption.
  - intros H at_yield'.
    rewrite !(get_client_not_reached env) by exact H. reflexivity.
Qed.

Lemma X1_release_follows_arbitrary_block_code_witness :
  let s := initial_store None LibraryDefaults in
  let reload := fun _ : KubernetesClient =>
                  Py.bind (Kube.load_incluster_config env_workstation)
                          (fun _ => Py.ret 5) in
  let r := get_client env_workstation "core" None reload s in
  result (resolve_configuration env_workstation s) = Ok tt
  /\ dict_get (module_K8S_CLIENT_TYPES s) "core" = Some CoreV1Api
  /\ trace r
     = [EvConfigurationInit; EvApiClientInit LibraryDefaults;
        EvLoadInclusterConfig; EvLoadKubeConfig;
        EvResourceClientInit CoreV1Api; EvLoadInclusterConfig;
        EvPoolManagerClear (mkApiClient LibraryDefaults);
        EvApiClientClose (mkApiClient LibraryDefaults)]
  /\ result r = Raise (ConfigException "Service host/port is not set.").
Proof.
  intros s reload r.
  assert (H : result (resolve_configuration env_workstation s) = Ok tt)
    by reflexivity.
  assert (D : dict_get (module_K8S_CLIENT_TYPES s) "core" = Some CoreV1Api)
    by reflexivity.
  pose proof (proj1 (X1_release_follows_arbitrary_block_code env_workstation s
                       "core" None reload) CoreV1Api H D) as E.
  split; [exact H | split; [exact D |]].
  unfold r. rewrite E. split; reflexivity.
Defined.

(** ** Nested acquisitions *)










(** ** Repeated acquisitions *)

(** X3: an acquisition repeated in the store that the first one left,
    with the library calls ending the same way, makes the same calls,
    ends the same way and leaves the same store: nothing of one
    acquisition is carried into the next. *)
Theorem X3_repeated_acquisition_is_the_same_run
    (env : Environment) (s : Store) (client_type : string)
    (configuration : option Configuration)
    (block : KubernetesClient -> BlockExit) :
  let r1 := with_get_client env client_type configuration block s in
  with_get_client env client_type configuration block (store r1) = r1.
Proof.
  intros r1. unfold r1.
  rewrite with_get_client_store. apply with_get_client_after_chain.
Qed.

(** ** Where an exception comes from *)

(** X4: an exception that leaves [get_resource_specific_client] is the
    one raised by [configure_client] of the stored cluster
    configuration; or, with none stored, the one raised by
    [load_incluster_config] when that is no [ConfigException], or the
    one raised by [load_kube_config] after a [ConfigException]; or,
    after the chain returned, the [ValueError] for a selector that is
    no key.  So the [ConfigException] of [load_incluster_config] and the
    [KeyError] of the lookup never reach the caller. *)
Theorem X4_origin_of_exceptions
    (env : Environment) (s : Store) (client_type : string) (e : PyExn) :
  result (get_resource_specific_client env client_type s) = Raise e ->
  (exists c, self_cluster_config s = Some c
             /\ configure_client_raises env c = Some e)
  \/ (self_cluster_config s = None
      /\ load_incluster_config_raises env = Some e
      /\ is_ConfigException e = false)
  \/ (self_cluster_config s = None
      /\ (exists e0, load_incluster_config_raises env = Some e0
                     /\ is_ConfigException e0 = true)
      /\ load_kube_config_raises env = Some e)
  \/ (result (resolve_configuration env s) = Ok tt
      /\ dict_get (module_K8S_CLIENT_TYPES s) client_type = None
      /\ e = ValueError
               (invalid_client_type_message client_type
                  (dict_keys (module_K8S_CLIENT_TYPES s)))).
Proof.
  rewrite get_resource_specific_client_run.
  destruct (self_cluster_config s) as [c |] eqn:H.
  - rewrite (resolve_configuration_explicit env s c H).
    destruct (configure_client_raises env c) as [e' |] eqn:E;
      cbn [result trace store].
    + intros R. injection R as <-. left. exists c. split; [reflexivity | exact E].
    + destruct (dict_get (module_K8S_CLIENT_TYPES s) client_type) eqn:D;
        cbn [result]; intros R; [discriminate R |].
      injection R as <-. right; right; right.
      repeat split; reflexivity.
  - rewrite (resolve_configuration_fallback env s H).
    destruct (load_incluster_config_raises env) as [e0 |] eqn:E.
    + destruct (is_ConfigException e0) eqn:I.
      * destruct (load_kube_config_raises env) as [e' |] eqn:K;
          cbn [result trace store].
        -- intros R. injection R as <-. right; right; left.
           split; [reflexivity | split; [| reflexivity]].
           exists e0. split; [reflexivity | exact I].
        -- destruct (dict_get (module_K8S_CLIENT_TYPES s) client_type) eqn:D;
             cbn [result]; intros R; [discriminate R |].
           injection R as <-. right; right; right.
           repeat split; reflexivity.
      * cbn [result]. intros R. injection R as <-. right; left.
        split; [reflexivity | split; [reflexivity | exact I]].
    + cbn [result trace store].
      destruct (dict_get (module_K8S_CLIENT_TYPES s) client_type) eqn:D;
        cbn [result]; intros R; [discriminate R |].
      injection R as <-. right; right; right.
      repeat split; reflexivity.
Qed.

Lemma X4_origin_of_exceptions_witness :
  let s := initial_store None LibraryDefaults in
  let e := ConfigException "Invalid kube-config file." in
  result (get_resource_specific_client env_bare "apps" s) = Raise e
  /\ load_kube_config_raises env_bare = Some e.
Proof.
  intros s e.
  assert (R : result (get_resource_specific_client env_bare "apps" s)
              = Raise e) by reflexivity.
  split; [exact R |].
  destruct (X4_origin_of_exceptions env_bare s "apps" e R)
    as [(c & C & _) | [(_ & I & _) | [(_ & _ & K) | (O & _)]]].
  - discriminate C.
  - discriminate I.
  - exact K.
  - discriminate O.
Defined.

(** ** More on strings *)

Lemma length_append (a b : string) :
  String.length (a ++ b)%string = String.length a + String.length b.
Proof. induction a as [| ch a IH]; cbn; [reflexivity | rewrite IH; reflexivity]. Qed.

Lemma append_cancel_l (p a b : string) :
  (p ++ a)%string = (p ++ b)%string -> a = b.
Proof.
  induction p as [| ch p IH]; cbn; intros H; [exact H |].
  injection H as H. apply IH, H.
Qed.

Lemma append_cancel_r (q a b : string) :
  (a ++ q)%string = (b ++ q)%string -> a = b.
Proof.
  intros H.
  assert (L : String.length a = String.length b).
  { apply (f_equal String.length) in H. rewrite !length_append in H. lia. }
  revert b H L. induction a as [| ch a IH]; intros [| ch' b] H L;
    cbn in L; try discriminate L.
  - reflexivity.
  - cbn in H. injection H as -> H. f_equal. apply IH; [exact H | lia].
Qed.

Lemma prefix_refl (a : string) : String.prefix a a = true.
Proof.
  induction a as [| ch a IH]; [reflexivity |]. cbn.
  destruct (ascii_dec ch ch) as [_ | N]; [exact IH | contradiction].
Qed.

Lemma str_contains_refl (a : string) : str_contains a a = true.
Proof. destruct a; cbn [str_contains]; rewrite prefix_refl; reflexivity. Qed.

Lemma join_contains (sep x : string) (l : list string) :
  In x l -> str_contains (join sep l) x = true.
Proof.
  induction l as [| a l IH]; [intros [] |].
  destruct l as [| b l'].
  - intros [<- | []]. cbn [join]. apply str_contains_refl.
  - intros [<- | Hx].
    + change (join sep (a :: b :: l'))
        with (a ++ sep ++ join sep (b :: l'))%string.
      apply str_contains_here.
    + change (join sep (a :: b :: l'))
        with (a ++ sep ++ join sep (b :: l'))%string.
      apply str_contains_later, str_contains_later, IH, Hx.
Qed.

Lemma str_contains_earlier (a b sub : string) :
  str_contains a sub = true -> str_contains (a ++ b)%string sub = true.
Proof.
  assert (P : forall a, String.prefix sub a = true ->
                String.prefix sub (a ++ b)%string = true).
  { induction sub as [| ch sub IH]; intros a0 H.
    - destruct (a0 ++ b)%string; reflexivity.
    - destruct a0 as [| ch' a0]; [discriminate H |]. cbn in H |- *.
      destruct (ascii_dec ch ch'); [apply IH, H | discriminate H]. }
  induction a as [| ch a IH]; cbn [str_contains]; intros H.
  - rewrite orb_false_r in H.
    destruct sub; [| discriminate H].
    destruct ("" ++ b)%string; reflexivity.
  - apply orb_true_iff in H. destruct H as [H | H].
    + pose proof (P (String ch a) H) as Q. cbn [append] in Q.
      cbn [append str_contains]. rewrite Q. reflexivity.
    + cbn [append str_contains]. rewrite (IH H). apply orb_true_r.
Qed.

(** ** The message for any table *)

(** X5: the table is a module global that other code may change; for
    whatever table it is at the time of the call (with keys that
    [repr] only quotes), a selector that is no key of it is rejected,
    once the chain returned, with a [ValueError] whose message
    contains the selector and, in quotes, every key of that table. *)
Theorem X5_message_lists_every_current_key
    (env : Environment) (s : Store) (client_type : string) :
  forallb plain_key (dict_keys (module_K8S_CLIENT_TYPES s)) = true ->
  dict_get (module_K8S_CLIENT_TYPES s) client_type = None ->
  result (resolve_configuration env s) = Ok tt ->
  exists m,
    result (get_resource_specific_client env client_type s)
    = Raise (ValueError m)
    /\ str_contains m client_type = true
    /\ (forall k, In k (dict_keys (module_K8S_CLIENT_TYPES s)) ->
          str_contains m (repr k) = true).
Proof.
  intros _ D R.
  exists (invalid_client_type_message client_type
            (dict_keys (module_K8S_CLIENT_TYPES s))).
  split; [| split].
  - rewrite get_resource_specific_client_run, R, D. reflexivity.
  - apply str_contains_middle.
  - intros k Hk. unfold invalid_client_type_message.
    do 4 apply str_contains_later. apply str_contains_earlier.
    apply join_contains, in_map, Hk.
Qed.

Lemma X5_message_lists_every_current_key_witness :
  let s := mkStore None
             [("apps", AppsV1Api); ("core", CoreV1Api); ("pods", CoreV1Api)]
             LibraryDefaults in
  forallb plain_key (dict_keys (module_K8S_CLIENT_TYPES s)) = true
  /\ dict_get (module_K8S_CLIENT_TYPES s) "batch" = None
  /\ exists m,
       result (get_resource_specific_client env_incluster "batch" s)
       = Raise (ValueError m)
       /\ str_contains m (repr "pods") = true.
Proof.
  intros s.
  assert (P : forallb plain_key (dict_keys (module_K8S_CLIENT_TYPES s))
              = true) by reflexivity.
  assert (D : dict_get (module_K8S_CLIENT_TYPES s) "batch" = None)
    by reflexivity.
  destruct (X5_message_lists_every_current_key env_incluster s "batch" P D
              eq_refl) as (m & R & _ & K).
  split; [exact P | split; [exact D |]].
  exists m. split; [exact R |].
  apply K. right; right; left. reflexivity.
Defined.

(** X6: for a given table, two selectors with the same error message
    are the same selector: the message tells the rejected value
    apart. *)
Theorem X6_message_determines_the_rejected_value
    (a b : string) (keys : list string) :
  invalid_client_type_message a keys = invalid_client_type_message b keys ->
  a = b.
Proof.
  unfold invalid_client_type_message. intros H.
  apply append_cancel_l in H. apply append_cancel_r in H. exact H.
Qed.

Lemma X6_message_determines_the_rejected_value_witness :
  invalid_client_type_message "widgets" ["apps"; "batch"; "core"]
  = invalid_client_type_message "widgets" ["apps"; "batch"; "core"]
  /\ "widgets" = "widgets".
Proof.
  split; [reflexivity |].
  apply (X6_message_determines_the_rejected_value "widgets" "widgets"
           ["apps"; "batch"; "core"]).
  reflexivity.
Defined.

(** ** Which mechanism configured the client *)



(** ** The method called on its own *)


(** ** The protocol and the with-statement *)

Lemma PyExn_eqb_refl (e : PyExn) : PyExn_eqb e e = true.
Proof. destruct e; cbn; rewrite ?String.eqb_refl; reflexivity. Qed.

Lemma get_client_exit_run (t : ApiClient) (thrown : option PyExn)
    (s : Store) :
  get_client_exit t thrown s
  = mkRun [EvPoolManagerClear t; EvApiClientClose t] s (Ok false).
Proof.
  unfold get_client_exit, resume_generator, Py.try_except, Py.try_finally,
    Py.bind, Py.ret, Py.raise, Py.emit, Kube.pool_manager_clear,
    Kube.ApiClient_exit.
  destruct thrown as [e |]; cbn; [| reflexivity].
  rewrite PyExn_eqb_refl. reflexivity.
Qed.

Lemma get_client_enter_run (env : Environment) (client_type : string)
    (configuration : option Configuration) (s : Store) :
  let g := get_resource_specific_client env client_type s in
  let t := mkApiClient (effective_configuration configuration) in
  get_client_enter env client_type configuration s =
  match result g with
  | Ok c =>
      mkRun (configuration_events configuration
               ++ EvApiClientInit (effective_configuration configuration)
               :: trace g)
            (store g) (Ok (t, c))
  | Raise e =>
      mkRun (configuration_events configuration
               ++ EvApiClientInit (effective_configuration configuration)
               :: trace g ++ [EvPoolManagerClear t; EvApiClientClose t])
            (store g) (Raise e)
  end.
Proof.
  intros g t. unfold get_client_enter.
  set (m := get_resource_specific_client env client_type) in *.
  assert (G : m s = g) by reflexivity. clearbody m g.
  unfold unwinding, Py.bind, Py.ret, Py.emit, Kube.Configuration_init,
    Kube.ApiClient_init, Kube.pool_manager_clear, Kube.ApiClient_exit.
  destruct configuration as [c |]; cbn; rewrite G;
    destruct g as [tr st [c' | e]]; cbn;
    rewrite ?app_nil_r, <- ?app_assoc; reflexivity.
Qed.

(** X9: the with-statement spelled out by the protocol ([__enter__],
    the block, [__exit__] with or without the block's exception,
    re-raising unless suppressed) is the same run as the generator
    body with the block at its [yield]: same calls, same store, same
    result, for every input. *)
Theorem X9_protocol_agrees_with_generator_body
    (env : Environment) (s : Store) (client_type : string)
    (configuration : option Configuration)
    (block : KubernetesClient -> BlockExit) :
  with_protocol env client_type configuration block s
  = with_get_client env client_type configuration block s.
Proof.
  unfold with_get_client. rewrite get_client_run.
  unfold with_protocol, Py.bind. rewrite get_client_enter_run.
  destruct (get_resource_specific_client env client_type s)
    as [tr st [c | e]]; cbn [result store trace fst snd]; [| reflexivity].
  unfold attempt, run_block, Py.bind, Py.emit.
  cbn [result store trace].
  destruct (block c) as [| v | e];
    cbn [result store trace Py.ret Py.raise];
    rewrite get_client_exit_run; cbn [result store trace app];
    rewrite ?app_nil_r, <- ?app_assoc; reflexivity.
Qed.

